(** * CesiumMetadataImpl.h: the metadata value, property and feature-ID unions

    A shallow embedding of [src/CesiumForUnityNative/src/CesiumMetadataImpl.h]:
    the three [std::variant] aliases, the visitor of [getString] with its
    [if constexpr] dispatch on [decltype(arg)], and the two collections owned
    by [CesiumMetadataImpl]. *)

From Stdlib Require Import ZArith SpecFloat.
From stdpp Require Import base decidable option list strings pretty gmap.

Local Open Scope string_scope.
Local Open Scope list_scope.
Local Open Scope Z_scope.

(** ** C++ type expressions

    The header is mostly type-level: three variant aliases and a visitor that
    branches on a type.  Type expressions are therefore first-class data here.
    [const_ T] and [lref T] are the qualifiers that [decltype] can report. *)

Inductive CppType : Type :=
  | monostate
  | int8_t | uint8_t | int16_t | uint16_t
  | int32_t | uint32_t | int64_t | uint64_t
  | float_t | double_t
  | bool_t
  | string_view
  | MetadataArrayView (T : CppType)
  | MetadataPropertyView (T : CppType)
  | SCALAR (T : CppType)
  | AccessorView (T : CppType)
  | const_ (T : CppType)
  | lref (T : CppType).

Global Instance CppType_eq_dec : EqDecision CppType.
Proof. solve_decision. Defined.

(** [using ValueType = std::variant<...>], lines 16-41, in declaration order. *)
Definition ValueType_alternatives : list CppType :=
  [ monostate;
    int8_t; uint8_t; int16_t; uint16_t;
    int32_t; uint32_t; int64_t; uint64_t;
    float_t; double_t;
    bool_t;
    string_view;
    MetadataArrayView int8_t; MetadataArrayView uint8_t;
    MetadataArrayView int16_t; MetadataArrayView uint16_t;
    MetadataArrayView int32_t; MetadataArrayView uint32_t;
    MetadataArrayView int64_t; MetadataArrayView uint64_t;
    MetadataArrayView float_t; MetadataArrayView double_t;
    MetadataArrayView bool_t;
    MetadataArrayView string_view ].

(** [using PropertyType = std::variant<...>], lines 59-84. *)
Definition PropertyType_alternatives : list CppType :=
  [ MetadataPropertyView int8_t; MetadataPropertyView uint8_t;
    MetadataPropertyView int16_t; MetadataPropertyView uint16_t;
    MetadataPropertyView int32_t; MetadataPropertyView uint32_t;
    MetadataPropertyView int64_t; MetadataPropertyView uint64_t;
    MetadataPropertyView float_t; MetadataPropertyView double_t;
    MetadataPropertyView bool_t;
    MetadataPropertyView string_view;
    MetadataPropertyView (MetadataArrayView int8_t);
    MetadataPropertyView (MetadataArrayView uint8_t);
    MetadataPropertyView (MetadataArrayView int16_t);
    MetadataPropertyView (MetadataArrayView uint16_t);
    MetadataPropertyView (MetadataArrayView int32_t);
    MetadataPropertyView (MetadataArrayView uint32_t);
    MetadataPropertyView (MetadataArrayView int64_t);
    MetadataPropertyView (MetadataArrayView uint64_t);
    MetadataPropertyView (MetadataArrayView float_t);
    MetadataPropertyView (MetadataArrayView double_t);
    MetadataPropertyView (MetadataArrayView bool_t);
    MetadataPropertyView (MetadataArrayView string_view) ].

(** [using FeatureIDAccessorType = std::variant<...>], lines 86-93. *)
Definition FeatureIDAccessorType_alternatives : list CppType :=
  [ monostate;
    AccessorView (SCALAR int8_t);
    AccessorView (SCALAR uint8_t);
    AccessorView (SCALAR int16_t);
    AccessorView (SCALAR uint16_t);
    AccessorView (SCALAR uint32_t);
    AccessorView (SCALAR float_t) ].

(** The twelve element encodings the spec enumerates: eight integers, two
    floats, boolean and string. *)
Definition integer_types : list CppType :=
  [ int8_t; uint8_t; int16_t; uint16_t; int32_t; uint32_t; int64_t; uint64_t ].
Definition floating_types : list CppType := [ float_t; double_t ].
Definition element_types : list CppType :=
  integer_types ++ floating_types ++ [ bool_t; string_view ].

(** The concrete encodings: each element, then an array view of each. *)
Definition concrete_encodings : list CppType :=
  element_types ++ (MetadataArrayView <$> element_types).

(** The component types a feature-ID accessor can read. *)
Definition feature_id_component_types : list CppType :=
  [ int8_t; uint8_t; int16_t; uint16_t; uint32_t; float_t ].

(** A column of zero bytes, four bytes wide and one element long. *)
Definition zero_bytes : list Z := [0; 0; 0; 0].

(** ** Values of [ValueType]

    One constructor per alternative, in the order of the alias.  Integers are
    carried as [Z] (their widths are recorded by [valid]), floats as IEEE-754
    data, a [string_view] as the characters it views, and an array view as the
    sequence of elements it views. *)

Inductive ValueType : Type :=
  | V_monostate
  | V_int8 (x : Z) | V_uint8 (x : Z) | V_int16 (x : Z) | V_uint16 (x : Z)
  | V_int32 (x : Z) | V_uint32 (x : Z) | V_int64 (x : Z) | V_uint64 (x : Z)
  | V_float (x : spec_float) | V_double (x : spec_float)
  | V_bool (b : bool)
  | V_string_view (s : string)
  | V_array_int8 (xs : list Z) | V_array_uint8 (xs : list Z)
  | V_array_int16 (xs : list Z) | V_array_uint16 (xs : list Z)
  | V_array_int32 (xs : list Z) | V_array_uint32 (xs : list Z)
  | V_array_int64 (xs : list Z) | V_array_uint64 (xs : list Z)
  | V_array_float (xs : list spec_float) | V_array_double (xs : list spec_float)
  | V_array_bool (bs : list bool)
  | V_array_string_view (ss : list string).

(** [std::variant::index()]. *)
Definition index (v : ValueType) : nat :=
  match v with
  | V_monostate => 0
  | V_int8 _ => 1 | V_uint8 _ => 2 | V_int16 _ => 3 | V_uint16 _ => 4
  | V_int32 _ => 5 | V_uint32 _ => 6 | V_int64 _ => 7 | V_uint64 _ => 8
  | V_float _ => 9 | V_double _ => 10
  | V_bool _ => 11
  | V_string_view _ => 12
  | V_array_int8 _ => 13 | V_array_uint8 _ => 14
  | V_array_int16 _ => 15 | V_array_uint16 _ => 16
  | V_array_int32 _ => 17 | V_array_uint32 _ => 18
  | V_array_int64 _ => 19 | V_array_uint64 _ => 20
  | V_array_float _ => 21 | V_array_double _ => 22
  | V_array_bool _ => 23
  | V_array_string_view _ => 24
  end%nat.

(** The static type of the active alternative. *)
Definition alternative (v : ValueType) : CppType :=
  match v with
  | V_monostate => monostate
  | V_int8 _ => int8_t | V_uint8 _ => uint8_t
  | V_int16 _ => int16_t | V_uint16 _ => uint16_t
  | V_int32 _ => int32_t | V_uint32 _ => uint32_t
  | V_int64 _ => int64_t | V_uint64 _ => uint64_t
  | V_float _ => float_t | V_double _ => double_t
  | V_bool _ => bool_t
  | V_string_view _ => string_view
  | V_array_int8 _ => MetadataArrayView int8_t
  | V_array_uint8 _ => MetadataArrayView uint8_t
  | V_array_int16 _ => MetadataArrayView int16_t
  | V_array_uint16 _ => MetadataArrayView uint16_t
  | V_array_int32 _ => MetadataArrayView int32_t
  | V_array_uint32 _ => MetadataArrayView uint32_t
  | V_array_int64 _ => MetadataArrayView int64_t
  | V_array_uint64 _ => MetadataArrayView uint64_t
  | V_array_float _ => MetadataArrayView float_t
  | V_array_double _ => MetadataArrayView double_t
  | V_array_bool _ => MetadataArrayView bool_t
  | V_array_string_view _ => MetadataArrayView string_view
  end.

(** The value range of each integer width. *)
Definition in_range (T : CppType) (x : Z) : bool :=
  match T with
  | int8_t => bool_decide (-2^7 <= x < 2^7)
  | uint8_t => bool_decide (0 <= x < 2^8)
  | int16_t => bool_decide (-2^15 <= x < 2^15)
  | uint16_t => bool_decide (0 <= x < 2^16)
  | int32_t => bool_decide (-2^31 <= x < 2^31)
  | uint32_t => bool_decide (0 <= x < 2^32)
  | int64_t => bool_decide (-2^63 <= x < 2^63)
  | uint64_t => bool_decide (0 <= x < 2^64)
  | _ => false
  end.

Definition binary32 (x : spec_float) : bool := valid_binary 24 128 x.
Definition binary64 (x : spec_float) : bool := valid_binary 53 1024 x.

(** A value the program can really hold: every payload fits its encoding. *)
Definition valid (v : ValueType) : bool :=
  match v with
  | V_monostate | V_bool _ | V_string_view _
  | V_array_bool _ | V_array_string_view _ => true
  | V_int8 x | V_uint8 x | V_int16 x | V_uint16 x
  | V_int32 x | V_uint32 x | V_int64 x | V_uint64 x => in_range (alternative v) x
  | V_float x => binary32 x
  | V_double x => binary64 x
  | V_array_int8 xs => forallb (in_range int8_t) xs
  | V_array_uint8 xs => forallb (in_range uint8_t) xs
  | V_array_int16 xs => forallb (in_range int16_t) xs
  | V_array_uint16 xs => forallb (in_range uint16_t) xs
  | V_array_int32 xs => forallb (in_range int32_t) xs
  | V_array_uint32 xs => forallb (in_range uint32_t) xs
  | V_array_int64 xs => forallb (in_range int64_t) xs
  | V_array_uint64 xs => forallb (in_range uint64_t) xs
  | V_array_float xs => forallb binary32 xs
  | V_array_double xs => forallb binary64 xs
  end.

(** The three classes of alternatives that the spec tells apart. *)
Definition is_numeric_value (v : ValueType) : bool :=
  bool_decide (alternative v ∈ integer_types ++ floating_types).

Definition is_array_or_absent (v : ValueType) : bool :=
  match alternative v with
  | monostate | MetadataArrayView _ => true
  | _ => false
  end.

(** ** The library operations the visitor calls

    [std::to_string], the contextual conversion to [bool] of the conditional
    operator, and the converting constructor of [std::string] come from the
    C++ standard library.  Each is defined on some alternatives only; [None]
    records that the expression does not type-check for that alternative. *)

(** Nearest integer to [n / d] for [d > 0], ties to even. *)
Definition round_half_even (n d : Z) : Z :=
  let q := n / d in
  let r := n mod d in
  if 2 * r <? d then q
  else if d <? 2 * r then q + 1
  else if Z.even q then q else q + 1.

(** [m * 2^e] in millionths, rounded. *)
Definition millionths (m : positive) (e : Z) : Z :=
  if 0 <=? e then Z.pos m * 2 ^ e * 10 ^ 6
  else round_half_even (Z.pos m * 10 ^ 6) (2 ^ (- e)).

Fixpoint zeros (n : nat) : string :=
  match n with O => EmptyString | S n' => "0" +:+ zeros n' end.

Definition zero_pad (width : nat) (s : string) : string :=
  zeros (width - String.length s) +:+ s.

Definition sign_text (s : bool) : string := if s then "-" else EmptyString.

(** [printf("%f", x)]: fixed notation with six fractional digits.  The data
    has one NaN, without the sign bit that [printf] shows as a leading minus;
    the text of a NaN is given here for a clear sign bit only. *)
Definition printf_f (x : spec_float) : string :=
  match x with
  | S754_zero s => sign_text s +:+ "0.000000"
  | S754_infinity s => sign_text s +:+ "inf"
  | S754_nan => "nan"
  | S754_finite s m e =>
      let n := millionths m e in
      sign_text s +:+ pretty (n / 10 ^ 6) +:+ "." +:+
      zero_pad 6 (pretty (n mod 10 ^ 6))
  end.

(** [std::to_string(arg)].  The narrow integers and [bool] promote to [int];
    every integer overload prints decimal digits with a leading minus sign;
    the floating overloads print as [%f]. *)
Definition std_to_string (arg : ValueType) : option string :=
  match arg with
  | V_int8 x | V_uint8 x | V_int16 x | V_uint16 x
  | V_int32 x | V_uint32 x | V_int64 x | V_uint64 x => Some (pretty x)
  | V_float x | V_double x => Some (printf_f x)
  | V_bool b => Some (pretty (Z.b2z b))
  | _ => None
  end.

Definition is_zero (x : spec_float) : bool :=
  match x with S754_zero _ => true | _ => false end.

(** The condition of [arg ? "true" : "false"]. *)
Definition to_bool (arg : ValueType) : option bool :=
  match arg with
  | V_int8 x | V_uint8 x | V_int16 x | V_uint16 x
  | V_int32 x | V_uint32 x | V_int64 x | V_uint64 x => Some (bool_decide (x ≠ 0))
  | V_float x | V_double x => Some (negb (is_zero x))
  | V_bool b => Some b
  | _ => None
  end.

(** [std::string(arg)]. *)
Definition std_string_of (arg : ValueType) : option string :=
  match arg with
  | V_string_view s => Some s
  | _ => None
  end.

(** The binary32 value 10.5 of the spec's example. *)
Definition f32_10_5 : spec_float := S754_finite false 11010048 (-20).

(** What the spec calls the canonical decimal text of a numeric value. *)
Definition decimal_text (v : ValueType) : option string :=
  if is_numeric_value v then std_to_string v else None.

(** ** The traits of [CesiumGltf] *)

Module CesiumGltf.

(** Modelled from the spec: the traits [IsMetadataNumeric],
    [IsMetadataBoolean] and [IsMetadataString] are declared by the CesiumGltf
    headers included on lines 3-8, outside src/.  Spec 4.1 names the classes
    they recognise: numeric is any integer or floating-point width, then
    boolean, then string.  Each is a class template specialised at those
    types; a specialisation matches its type argument exactly, so a
    cv-qualified or reference type falls to the primary template, which
    answers false. *)
Definition IsMetadataNumeric (T : CppType) : bool :=
  match T with
  | int8_t | uint8_t | int16_t | uint16_t
  | int32_t | uint32_t | int64_t | uint64_t
  | float_t | double_t => true
  | _ => false
  end.

(** Modelled from the spec: [IsMetadataBoolean] is declared by CesiumGltf,
    outside src/; spec 4.1: the boolean encoding, matched exactly. *)
Definition IsMetadataBoolean (T : CppType) : bool :=
  match T with bool_t => true | _ => false end.

(** Modelled from the spec: [IsMetadataString] is declared by CesiumGltf,
    outside src/; spec 4.1: the string encoding, matched exactly. *)
Definition IsMetadataString (T : CppType) : bool :=
  match T with string_view => true | _ => false end.

End CesiumGltf.

(** Traits that first strip the reference and the [const], as
    [std::decay_t<decltype(arg)>] would.  They are not what the header uses;
    they serve to state what the three arms of the visitor compute when they
    are kept. *)
Definition decay (T : CppType) : CppType :=
  match T with
  | lref (const_ U) | lref U | const_ U => U
  | _ => T
  end.

(** ** The visitor of [getString], lines 43-57 *)

(** The type that return-type deduction finds for a [return] statement. *)
Inductive ReturnType : Type := std_string | const_char_ptr.

Global Instance ReturnType_eq_dec : EqDecision ReturnType.
Proof. solve_decision. Defined.

(** [std::visit(vis, value)] calls [vis] on the active alternative.  This is
    the call alone: the result speaks of the instantiation of [vis] at that
    alternative.  That the visit as a whole compiles, with [vis] instantiated
    at every alternative, is [visit_well_formed] below. *)
Definition std_visit {R : Type} (vis : ValueType → R) (value : ValueType) : R :=
  vis value.

(** Return-type deduction of a lambda without a trailing return type: every
    return statement that was not discarded must deduce the same type.  The
    statement that executes is the first one. *)
Definition deduce (rs : list (ReturnType * string)) : option string :=
  match rs with
  | [] => None
  | (ty, s) :: rest =>
      if forallb (λ r, bool_decide (r.1 = ty)) rest then Some s else None
  end.

(** The types deduced for a list of return statements, their values
    forgotten. *)
Definition deduced_types (rs : list (option (ReturnType * string)))
    : list (option ReturnType) :=
  map (option_map fst) rs.

Section Visitor.

Variables IsMetadataNumeric IsMetadataBoolean IsMetadataString : CppType → bool.

(** [using T = decltype(arg)] for [auto&& arg] bound to an alternative of a
    [const ValueType&]: an lvalue reference to the const alternative. *)
Definition decltype_arg (arg : ValueType) : CppType :=
  lref (const_ (alternative arg)).

(** The return statements that survive [if constexpr] for this [T], in
    source order, each with its deduced type and the string it denotes.  The
    last one, [return defaultValue;], is outside the chain and always
    survives. *)
Definition kept_returns (defaultValue : string) (arg : ValueType)
    : list (option (ReturnType * string)) :=
  let T := decltype_arg arg in
  (if IsMetadataNumeric T then
     [ pair std_string <$> std_to_string arg ]
   else if IsMetadataBoolean T then
     [ (λ b : bool, (const_char_ptr, if b then "true" else "false"))
         <$> to_bool arg ]
   else if IsMetadataString T then
     [ pair std_string <$> std_string_of arg ]
   else [])
  ++ [ Some (std_string, defaultValue) ].

(** The instantiation of [[defaultValue](auto&& arg) {...}] at the
    alternative of [arg].  [None]: the instantiation is ill-formed. *)
Definition lambda (defaultValue : string) (arg : ValueType) : option string :=
  mapM id (kept_returns defaultValue arg) ≫= deduce.

Definition getString_with (value : ValueType) (defaultValue : string)
    : option string :=
  std_visit (lambda defaultValue) value.

End Visitor.

(** [getString] with the traits of the library. *)
Definition getString (value : ValueType) (defaultValue : string) : option string :=
  getString_with CesiumGltf.IsMetadataNumeric CesiumGltf.IsMetadataBoolean
    CesiumGltf.IsMetadataString value defaultValue.

(** The same visitor with traits that look through the qualifiers.  It
    speaks of one instantiation at a time; the visit as a whole is not
    well-formed with these traits, since the instantiation at [bool] is not. *)
Definition getString_decayed (value : ValueType) (defaultValue : string)
    : option string :=
  getString_with (CesiumGltf.IsMetadataNumeric ∘ decay)
    (CesiumGltf.IsMetadataBoolean ∘ decay)
    (CesiumGltf.IsMetadataString ∘ decay) value defaultValue.


(** [std::visit] on line 44 compiles: the lambda instantiates at every
    alternative.  Every well-formed instantiation returns [std::string], the
    type of line 55, so the instantiations then agree on the return type. *)
Definition visit_well_formed (N B S : CppType → bool) : Prop :=
  ∀ (arg : ValueType) (defaultValue : string),
    is_Some (lambda N B S defaultValue arg).

(** ** Values of [PropertyType] and [FeatureIDAccessorType]

    Both unions hold views: non-owning readers over a column of the decoded
    model.  A view is carried as the bytes it reads and the declared element
    count; the encoding is the active alternative. *)

Record Column : Type := {
  column_bytes : list Z;
  column_count : nat
}.

(** The twelve element encodings. *)
Inductive Element : Type :=
  | E_int8 | E_uint8 | E_int16 | E_uint16
  | E_int32 | E_uint32 | E_int64 | E_uint64
  | E_float | E_double
  | E_bool
  | E_string_view.

Definition element_type (e : Element) : CppType :=
  match e with
  | E_int8 => int8_t | E_uint8 => uint8_t
  | E_int16 => int16_t | E_uint16 => uint16_t
  | E_int32 => int32_t | E_uint32 => uint32_t
  | E_int64 => int64_t | E_uint64 => uint64_t
  | E_float => float_t | E_double => double_t
  | E_bool => bool_t
  | E_string_view => string_view
  end.

Definition element_index (e : Element) : nat :=
  match e with
  | E_int8 => 0 | E_uint8 => 1 | E_int16 => 2 | E_uint16 => 3
  | E_int32 => 4 | E_uint32 => 5 | E_int64 => 6 | E_uint64 => 7
  | E_float => 8 | E_double => 9
  | E_bool => 10
  | E_string_view => 11
  end%nat.

(** A concrete encoding: an element, or an array view of an element. *)
Inductive Encoding : Type :=
  | Scalar (e : Element)
  | Array (e : Element).

Definition encoding_type (c : Encoding) : CppType :=
  match c with
  | Scalar e => element_type e
  | Array e => MetadataArrayView (element_type e)
  end.

(** A [PropertyType] value: [MetadataPropertyView<T>] for the encoding [T]. *)
Inductive PropertyType : Type :=
  | PropertyView (c : Encoding) (col : Column).

Definition property_alternative (p : PropertyType) : CppType :=
  match p with PropertyView c _ => MetadataPropertyView (encoding_type c) end.

Definition property_index (p : PropertyType) : nat :=
  match p with
  | PropertyView (Scalar e) _ => element_index e
  | PropertyView (Array e) _ => 12 + element_index e
  end%nat.

(** The six component types of a feature-ID accessor. *)
Inductive Component : Type :=
  | C_int8 | C_uint8 | C_int16 | C_uint16 | C_uint32 | C_float.

Definition component_type (c : Component) : CppType :=
  match c with
  | C_int8 => int8_t | C_uint8 => uint8_t
  | C_int16 => int16_t | C_uint16 => uint16_t
  | C_uint32 => uint32_t
  | C_float => float_t
  end.

Definition component_index (c : Component) : nat :=
  match c with
  | C_int8 => 1 | C_uint8 => 2 | C_int16 => 3 | C_uint16 => 4
  | C_uint32 => 5 | C_float => 6
  end%nat.

(** A [FeatureIDAccessorType] value: [std::monostate], or
    [AccessorView<SCALAR<T>>] for a component type [T]. *)
Inductive FeatureIDAccessorType : Type :=
  | F_monostate
  | F_accessor (c : Component) (col : Column).

Definition accessor_alternative (a : FeatureIDAccessorType) : CppType :=
  match a with
  | F_monostate => monostate
  | F_accessor c _ => AccessorView (SCALAR (component_type c))
  end.

Definition accessor_index (a : FeatureIDAccessorType) : nat :=
  match a with
  | F_monostate => 0%nat
  | F_accessor c _ => component_index c
  end.

(** [std::holds_alternative<std::monostate>(a)]. *)
Definition holds_monostate (a : FeatureIDAccessorType) : bool :=
  match a with F_monostate => true | F_accessor _ _ => false end.

(** ** [class CesiumMetadataImpl], lines 95-113 *)

(** The two private members, lines 106-112. *)
Record CesiumMetadataImpl : Type := {
  _featureTables : gmap string (gmap string PropertyType);
  _featureIDs : list (string * FeatureIDAccessorType)
}.

(** The constructor, lines 98-99: an empty body, so both members are
    default-constructed. *)
Definition CesiumMetadataImpl_new : CesiumMetadataImpl :=
  {| _featureTables := ∅; _featureIDs := [] |}.

(** Modelled from the spec: the body of [JustBeforeDelete], declared on lines
    100-101, is missing.  Spec 5 and 6: the before-delete hook releases the
    two owned collections. *)
Definition JustBeforeDelete (this : CesiumMetadataImpl) : CesiumMetadataImpl :=
  {| _featureTables := ∅; _featureIDs := [] |}.

(** ** [loadMetadata], lines 102-104

    The header declares the member function; its body is in a translation
    unit that is not under src/. *)

Section Loader.

(** The tags the payload declares, and how each selects an encoding.  The
    spec fixes neither; a tag that selects nothing is an unknown tag. *)
Context {PropertyTag ComponentTag : Type}.
Variable property_encoding : PropertyTag → option Encoding.
Variable accessor_component : ComponentTag → option Component.

(** A property as the metadata extension declares it. *)
Record ClassProperty : Type := {
  property_tag : PropertyTag;
  property_column : Column
}.

Record FeatureTable : Type := {
  properties : gmap string ClassProperty
}.

Record ExtensionModelExtFeatureMetadata : Type := {
  featureTables : gmap string FeatureTable
}.

(** A feature-ID attribute as a primitive declares it. *)
Record FeatureIDAttribute : Type := {
  featureTable : string;
  componentType : ComponentTag;
  accessor_column : Column
}.

Record MeshPrimitive : Type := {
  featureIdAttribute : option FeatureIDAttribute
}.

Record Mesh : Type := {
  primitives : list MeshPrimitive
}.

Record Model : Type := {
  meshes : list Mesh
}.

(** Modelled from the spec: the body of [loadMetadata] is missing.  Spec 4.4
    and 7: a property is given the Property View that its declared tag
    selects; a property whose tag selects no known variant is skipped. *)
Definition loadProperty (p : ClassProperty) : option PropertyType :=
  c ← property_encoding (property_tag p);
  Some (PropertyView c (property_column p)).

(** Modelled from the spec: the body of [loadMetadata] is missing.  Spec
    4.4: for every declared feature table, an inner mapping from property
    name to Property View. *)
Definition loadTable (t : FeatureTable) : gmap string PropertyType :=
  omap loadProperty (properties t).

(** Modelled from the spec: the body of [loadMetadata] is missing.  Spec
    4.4 and 7: the accessor variant is built from the declared component
    type and paired with the table name; an unknown component type is
    skipped. *)
Definition loadFeatureID (a : FeatureIDAttribute)
    : option (string * FeatureIDAccessorType) :=
  c ← accessor_component (componentType a);
  Some (featureTable a, F_accessor c (accessor_column a)).

(** Modelled from the spec: the body of [loadMetadata] is missing.  Spec
    4.4: the loader walks all primitives of all meshes, in traversal
    order, and looks at those that declare a feature-ID attribute. *)
Definition declaredFeatureIDs (model : Model) : list FeatureIDAttribute :=
  mesh ← meshes model; omap featureIdAttribute (primitives mesh).

(** Modelled from the spec: the body of [loadMetadata] is missing.  Spec
    4.4: no return value; the effect is to insert every loaded table into
    the outer mapping and to append every loaded pair to the list. *)
Definition loadMetadata (model : Model)
    (modelMetadata : ExtensionModelExtFeatureMetadata)
    (this : CesiumMetadataImpl) : CesiumMetadataImpl :=
  {| _featureTables :=
       (loadTable <$> featureTables modelMetadata) ∪ _featureTables this;
     _featureIDs :=
       _featureIDs this ++ omap loadFeatureID (declaredFeatureIDs model) |}.

End Loader.

(** ** A small payload

    Two feature tables and two meshes, with one property and one feature-ID
    attribute whose tags select nothing.  Property tags are type names and
    component tags are glTF component-type codes. *)

Definition example_property_encoding (tag : string) : option Encoding :=
  if decide (tag = "FLOAT32") then Some (Scalar E_float)
  else if decide (tag = "STRING") then Some (Scalar E_string_view)
  else if decide (tag = "UINT8") then Some (Scalar E_uint8)
  else None.

Definition example_accessor_component (code : Z) : option Component :=
  if decide (code = 5120) then Some C_int8
  else if decide (code = 5121) then Some C_uint8
  else if decide (code = 5122) then Some C_int16
  else if decide (code = 5123) then Some C_uint16
  else if decide (code = 5125) then Some C_uint32
  else if decide (code = 5126) then Some C_float
  else None.

Definition height_column : Column :=
  {| column_bytes := [0; 0; 40; 65; 0; 0; 160; 65]; column_count := 2 |}.
Definition footprint_column : Column :=
  {| column_bytes := [1; 2; 3; 4; 5; 6]; column_count := 2 |}.
Definition species_column : Column :=
  {| column_bytes := [111; 97; 107; 112; 105; 110; 101]; column_count := 2 |}.
Definition ids_column : Column :=
  {| column_bytes := [3; 0; 0; 0; 3; 0; 0; 0; 7; 0; 0; 0]; column_count := 3 |}.

Definition height_property : @ClassProperty string :=
  {| property_tag := "FLOAT32"; property_column := height_column |}.
Definition footprint_property : @ClassProperty string :=
  {| property_tag := "VEC3"; property_column := footprint_column |}.
Definition species_property : @ClassProperty string :=
  {| property_tag := "STRING"; property_column := species_column |}.

Definition buildings_table : @FeatureTable string :=
  {| properties :=
       <["height" := height_property]>
         (<["footprint" := footprint_property]> ∅) |}.
Definition trees_table : @FeatureTable string :=
  {| properties := <["species" := species_property]> ∅ |}.

Definition example_metadata : @ExtensionModelExtFeatureMetadata string :=
  {| featureTables :=
       <["buildings" := buildings_table]> (<["trees" := trees_table]> ∅) |}.

Definition buildings_ids : @FeatureIDAttribute Z :=
  {| featureTable := "buildings"; componentType := 5125;
     accessor_column := ids_column |}.
Definition signed_ids : @FeatureIDAttribute Z :=
  {| featureTable := "buildings"; componentType := 5124;
     accessor_column := ids_column |}.
Definition trees_ids : @FeatureIDAttribute Z :=
  {| featureTable := "trees"; componentType := 5121;
     accessor_column := footprint_column |}.

Definition example_model : @Model Z :=
  {| meshes :=
       [ {| primitives :=
              [ {| featureIdAttribute := Some buildings_ids |};
                {| featureIdAttribute := None |};
                {| featureIdAttribute := Some signed_ids |} ] |};
         {| primitives := [ {| featureIdAttribute := Some trees_ids |} ] |} ] |}.

(** A metadata extension all of whose property tags are known. *)
Definition trees_metadata : @ExtensionModelExtFeatureMetadata string :=
  {| featureTables := <["trees" := trees_table]> ∅ |}.

Definition trees_loaded : CesiumMetadataImpl :=
  loadMetadata example_property_encoding example_accessor_component
    example_model trees_metadata CesiumMetadataImpl_new.

Definition example_loaded : CesiumMetadataImpl :=
  loadMetadata example_property_encoding example_accessor_component
    example_model example_metadata CesiumMetadataImpl_new.

(** * Theorems *)

(** ** The visitor under arbitrary traits

    What holds of the lambda whatever the library's traits answer on
    [decltype(arg)]. *)

Section VisitorFacts.

Variables N B S : CppType → bool.

(** When no arm of the [if constexpr] chain is kept, the lambda consists of
    [return defaultValue;]. *)
Lemma lambda_no_arm (d : string) (arg : ValueType) :
  N (decltype_arg arg) = false →
  B (decltype_arg arg) = false →
  S (decltype_arg arg) = false →
  lambda N B S d arg = Some d.
Proof.
  intros HN HB HS. unfold lambda, kept_returns.
  rewrite HN, HB, HS. reflexivity.
Qed.

(** Keeping the boolean arm makes the instantiation ill-formed: it deduces
    [const char*] where [return defaultValue;] deduces [std::string]. *)
Lemma lambda_boolean_arm_ill_formed (d : string) (arg : ValueType) :
  N (decltype_arg arg) = false →
  B (decltype_arg arg) = true →
  lambda N B S d arg = None.
Proof.
  intros HN HB. unfold lambda, kept_returns.
  rewrite HN, HB. destruct (to_bool arg); reflexivity.
Qed.

(** The numeric arm, when kept, returns [std::to_string(arg)]. *)
Lemma lambda_numeric_arm (d : string) (arg : ValueType) :
  N (decltype_arg arg) = true →
  lambda N B S d arg = std_to_string arg.
Proof.
  intros HN. unfold lambda, kept_returns.
  rewrite HN. destruct (std_to_string arg); reflexivity.
Qed.

(** The string arm, when kept, returns [std::string(arg)]. *)
Lemma lambda_string_arm (d : string) (arg : ValueType) :
  N (decltype_arg arg) = false →
  B (decltype_arg arg) = false →
  S (decltype_arg arg) = true →
  lambda N B S d arg = std_string_of arg.
Proof.
  intros HN HB HS. unfold lambda, kept_returns.
  rewrite HN, HB, HS. destruct (std_string_of arg); reflexivity.
Qed.

(** A well-formed instantiation at an array view or at [std::monostate] can
    only be the fallback: no other arm type-checks there. *)
Lemma lambda_array_or_absent (d s : string) (arg : ValueType) :
  is_array_or_absent arg = true →
  lambda N B S d arg = Some s →
  s = d.
Proof.
  unfold lambda, kept_returns, decltype_arg.
  destruct arg; try discriminate; intros _; cbn [alternative];
    repeat case_match; cbn; congruence.
Qed.

(** A well-formed instantiation at [bool] yields the fallback or the digit
    that [std::to_string] prints for the promoted value; it cannot yield
    the words of the boolean arm. *)
Lemma lambda_bool (d s : string) (b : bool) :
  lambda N B S d (V_bool b) = Some s →
  s = d ∨ s = pretty (Z.b2z b).
Proof.
  unfold lambda, kept_returns, decltype_arg. cbn [alternative].
  repeat case_match; cbn; intros [= <-]; auto.
Qed.

(** Which return statements are kept, and what each deduces, is settled by
    the static type of the alternative: neither the payload nor the
    fallback takes part. *)
Lemma kept_returns_static (d d' : string) (v w : ValueType) :
  alternative v = alternative w →
  deduced_types (kept_returns N B S d v)
  = deduced_types (kept_returns N B S d' w).
Proof.
  unfold kept_returns, decltype_arg. intros Hvw. rewrite Hvw.
  repeat case_match; cbn; try reflexivity;
    destruct v, w; try discriminate Hvw; reflexivity.
Qed.

End VisitorFacts.

(** The lambda, arm by arm. *)
Lemma lambda_arms (N B S : CppType → bool) (d : string) (arg : ValueType) :
  lambda N B S d arg
  = if N (decltype_arg arg) then std_to_string arg
    else if B (decltype_arg arg) then None
    else if S (decltype_arg arg) then std_string_of arg
    else Some d.
Proof.
  destruct (N (decltype_arg arg)) eqn:HN.
  { by apply lambda_numeric_arm. }
  destruct (B (decltype_arg arg)) eqn:HB.
  { by apply lambda_boolean_arm_ill_formed. }
  destruct (S (decltype_arg arg)) eqn:HS.
  { by apply lambda_string_arm. }
  by apply lambda_no_arm.
Qed.




(** With traits that look through the qualifiers it does not: the
    instantiation at [bool] is ill-formed. *)
Lemma decayed_visit_ill_formed :
  ¬ visit_well_formed (CesiumGltf.IsMetadataNumeric ∘ decay)
      (CesiumGltf.IsMetadataBoolean ∘ decay)
      (CesiumGltf.IsMetadataString ∘ decay).
Proof.
  intros H. destruct (H (V_bool true) EmptyString) as [s Hs].
  discriminate Hs.
Qed.

(** With the library's traits no arm is kept, at any alternative. *)
Lemma getString_fallback (value : ValueType) (defaultValue : string) :
  getString value defaultValue = Some defaultValue.
Proof.
  unfold getString, getString_with, std_visit.
  apply lambda_no_arm; reflexivity.
Qed.

(** With traits that look through the qualifiers, the numeric arm prints the
    number, the string arm copies the characters, and the boolean arm does
    not compile. *)
Lemma getString_decayed_numeric (v : ValueType) (d : string) :
  is_numeric_value v = true →
  getString_decayed v d = decimal_text v.
Proof.
  intros Hv. unfold decimal_text. rewrite Hv.
  unfold getString_decayed, getString_with, std_visit.
  apply lambda_numeric_arm.
  destruct v; try reflexivity; discriminate Hv.
Qed.

Lemma getString_decayed_string (s d : string) :
  getString_decayed (V_string_view s) d = Some s.
Proof. reflexivity. Qed.

Lemma getString_decayed_bool (b : bool) (d : string) :
  getString_decayed (V_bool b) d = None.
Proof. destruct b; reflexivity. Qed.

Example decimal_text_examples :
  decimal_text (V_int8 (-128)) = Some "-128" ∧
  decimal_text (V_uint64 18446744073709551615) = Some "18446744073709551615" ∧
  decimal_text (V_float f32_10_5) = Some "10.500000" ∧
  decimal_text (V_bool true) = None.
Proof. repeat split; vm_compute; reflexivity. Qed.

(** ** [getString] *)

(** C1. At the numeric value 42 held as [int32_t], whose decimal text is
    "42", [getString] returns the fallback it was given, whatever that is:
    "n/a" for "n/a" and the empty string for the empty string.  Under
    arbitrary traits the visitor returns "42" there exactly when the numeric
    trait holds of [const int32_t&]. *)
Theorem getString_int32_42 :
  valid (V_int32 42) = true ∧
  is_numeric_value (V_int32 42) = true ∧
  decimal_text (V_int32 42) = Some "42" ∧
  getString (V_int32 42) "n/a" = Some "n/a" ∧
  getString (V_int32 42) EmptyString = Some EmptyString ∧
  (∀ N B S,
     getString_with N B S (V_int32 42) "n/a" = Some "42"
     ↔ N (lref (const_ int32_t)) = true).
Proof.
  repeat split; try (vm_compute; reflexivity).
  - intros H. destruct (N (lref (const_ int32_t))) eqn:HN; [reflexivity |].
    revert H. unfold getString_with, std_visit, lambda, kept_returns,
      decltype_arg. cbn [alternative]. rewrite HN.
    repeat case_match; cbn; discriminate.
  - intros HN. unfold getString_with, std_visit.
    rewrite lambda_numeric_arm by exact HN. vm_compute. reflexivity.
Qed.

(** C2. For every value whose active alternative is an array view or
    [std::monostate], and every fallback, [getString] returns the fallback
    unchanged. *)
Theorem getString_array_or_absent (value : ValueType) (defaultValue : string) :
  is_array_or_absent value = true →
  getString value defaultValue = Some defaultValue.
Proof. intros _. apply getString_fallback. Qed.

Lemma getString_array_or_absent_witness :
  is_array_or_absent (V_array_string_view ["oak"; "pine"]) = true ∧
  getString (V_array_string_view ["oak"; "pine"]) EmptyString = Some EmptyString.
Proof.
  split; [reflexivity |].
  apply (getString_array_or_absent (V_array_string_view ["oak"; "pine"]) EmptyString).
  reflexivity.
Defined.

(** C3. At the boolean values [true] and [false], [getString] returns the
    fallback "n/a", not the words "true" and "false".  No choice of traits
    makes the visitor return those words there: keeping the boolean arm
    leaves two return statements of different types. *)
Theorem getString_bool_n_a :
  getString (V_bool true) "n/a" = Some "n/a" ∧
  getString (V_bool false) "n/a" = Some "n/a" ∧
  (∀ N B S, getString_with N B S (V_bool true) "n/a" ≠ Some "true") ∧
  (∀ N B S, getString_with N B S (V_bool false) "n/a" ≠ Some "false").
Proof.
  split; [reflexivity |]. split; [reflexivity |].
  split; intros N B S H; apply lambda_bool in H as [H | H];
    vm_compute in H; discriminate.
Qed.

(** C4. At the string value viewing "pine", [getString] returns the fallback
    "n/a", not the viewed characters.  Under arbitrary traits the visitor
    returns "pine" there exactly when, of [const std::string_view&], the
    string trait holds and the other two do not. *)
Theorem getString_string_view_pine :
  std_string_of (V_string_view "pine") = Some "pine" ∧
  getString (V_string_view "pine") "n/a" = Some "n/a" ∧
  (∀ N B S,
     getString_with N B S (V_string_view "pine") "n/a" = Some "pine"
     ↔ N (lref (const_ string_view)) = false ∧
       B (lref (const_ string_view)) = false ∧
       S (lref (const_ string_view)) = true).
Proof.
  split; [reflexivity |]. split; [reflexivity |].
  intros N B S. unfold getString_with, std_visit, lambda, kept_returns,
    decltype_arg. cbn [alternative].
  destruct (N _), (B _), (S _); cbn; split;
    try discriminate; try (intros (? & ? & ?); discriminate);
    try (intros _; repeat split; reflexivity); reflexivity.
Qed.




(** ** The three unions *)

(** C6. [ValueType] lists [std::monostate] followed by 24 distinct concrete
    encodings: the 12 element types (8 integers, 2 floats, boolean, string)
    and an array view of each.  [PropertyType] lists a property view of each
    of the same 24, in the same order, and nothing for [std::monostate]. *)
Theorem ValueType_PropertyType_alternatives :
  length integer_types = 8%nat ∧
  length floating_types = 2%nat ∧
  length element_types = 12%nat ∧
  ValueType_alternatives = (monostate :: concrete_encodings) ∧
  length concrete_encodings = 24%nat ∧
  NoDup ValueType_alternatives ∧
  (∀ v, ValueType_alternatives !! index v = Some (alternative v)) ∧
  (∀ v, index v = 0%nat ↔ v = V_monostate) ∧
  PropertyType_alternatives = (MetadataPropertyView <$> concrete_encodings) ∧
  length PropertyType_alternatives = 24%nat ∧
  NoDup PropertyType_alternatives ∧
  (monostate ∉ PropertyType_alternatives) ∧
  (MetadataPropertyView monostate ∉ PropertyType_alternatives) ∧
  (∀ p, PropertyType_alternatives !! property_index p
        = Some (property_alternative p)) ∧
  (∀ p, property_alternative p ≠ monostate).
Proof.
  repeat split; try reflexivity.
  - apply (bool_decide_unpack _). vm_compute. reflexivity.
  - destruct v; reflexivity.
  - destruct v; simpl; congruence.
  - intros ->. reflexivity.
  - apply (bool_decide_unpack _). vm_compute. reflexivity.
  - apply (bool_decide_unpack _). vm_compute. reflexivity.
  - apply (bool_decide_unpack _). vm_compute. reflexivity.
  - destruct p as [[e|e] col]; destruct e; reflexivity.
  - destruct p; discriminate.
Qed.

(** C7. [FeatureIDAccessorType] lists [std::monostate] followed by six
    distinct scalar accessor views over integer or float components.  The
    [std::monostate] state differs from every constructed accessor, whatever
    column it reads: the values differ, their indices differ, and
    [holds_alternative<std::monostate>] tells them apart.  This holds in
    particular of an accessor over a column of zeros. *)
Theorem FeatureIDAccessorType_no_accessor_distinct :
  length FeatureIDAccessorType_alternatives = 7%nat ∧
  NoDup FeatureIDAccessorType_alternatives ∧
  FeatureIDAccessorType_alternatives !! 0%nat = Some monostate ∧
  length (tail FeatureIDAccessorType_alternatives) = 6%nat ∧
  Forall (λ T, ∃ U, T = AccessorView (SCALAR U) ∧
                    U ∈ integer_types ++ floating_types)
    (tail FeatureIDAccessorType_alternatives) ∧
  (∀ a, FeatureIDAccessorType_alternatives !! accessor_index a
        = Some (accessor_alternative a)) ∧
  (∀ a, accessor_index a = 0%nat ↔ a = F_monostate) ∧
  (∀ a, holds_monostate a = true ↔ a = F_monostate) ∧
  (∀ c col, F_accessor c col ≠ F_monostate ∧
            accessor_index (F_accessor c col) ≠ accessor_index F_monostate ∧
            accessor_alternative (F_accessor c col) ≠ monostate ∧
            holds_monostate (F_accessor c col) = false) ∧
  holds_monostate
    (F_accessor C_uint32 {| column_bytes := zero_bytes; column_count := 1 |})
  = false.
Proof.
  repeat split; try reflexivity; try discriminate.
  - apply (bool_decide_unpack _). vm_compute. reflexivity.
  - unfold FeatureIDAccessorType_alternatives. simpl.
    repeat apply Forall_cons_2; [.. | apply Forall_nil_2];
      eexists; (split; [reflexivity |]);
      apply (bool_decide_unpack _); vm_compute; reflexivity.
  - destruct a as [|c col]; [| destruct c]; reflexivity.
  - destruct a as [|c col]; [reflexivity | destruct c; discriminate].
  - intros ->. reflexivity.
  - destruct a; [reflexivity | discriminate].
  - intros ->. reflexivity.
  - destruct c; discriminate.
Qed.

(** C10. The accessor union is [std::monostate] followed by the scalar views
    over exactly int8, uint8, int16, uint16, uint32 and float.  Every accessor
    value is [std::monostate] or has one of those six as its alternative.  A
    scalar view over int32, int64, uint64 or double is not listed and is the
    alternative of no value. *)
Theorem FeatureIDAccessorType_encodings :
  FeatureIDAccessorType_alternatives
  = (monostate
       :: ((λ T, AccessorView (SCALAR T)) <$> feature_id_component_types)) ∧
  (∀ a, a = F_monostate ∨
        ∃ U, U ∈ feature_id_component_types ∧
             accessor_alternative a = AccessorView (SCALAR U)) ∧
  Forall (λ U, (AccessorView (SCALAR U) ∉ FeatureIDAccessorType_alternatives) ∧
               ∀ a, accessor_alternative a ≠ AccessorView (SCALAR U))
    [ int32_t; int64_t; uint64_t; double_t ].
Proof.
  split; [reflexivity | split].
  - intros [|c col]; [by left | right].
    exists (component_type c). split; [| reflexivity].
    destruct c; apply (bool_decide_unpack _); vm_compute; reflexivity.
  - repeat apply Forall_cons_2; [.. | apply Forall_nil_2];
      (split;
       [ apply (bool_decide_unpack _); vm_compute; reflexivity
       | intros [|c col]; [discriminate | destruct c; discriminate] ]).
Qed.

(** ** The loader and its two collections *)

Section LoaderFacts.

Context {PropertyTag ComponentTag : Type}.
Variable property_encoding : PropertyTag → option Encoding.
Variable accessor_component : ComponentTag → option Component.

Implicit Types (tbl : @FeatureTable PropertyTag).
Implicit Types (l : list (@FeatureIDAttribute ComponentTag)).

(** A loaded table holds, under each name, what the declared property of
    that name loads to. *)
Lemma loadTable_lookup tbl (p : string) :
  loadTable property_encoding tbl !! p
  = properties tbl !! p ≫= loadProperty property_encoding.
Proof. unfold loadTable. apply lookup_omap. Qed.

Lemma loadTable_unknown tbl (p : string) decl :
  properties tbl !! p = Some decl →
  property_encoding (property_tag decl) = None →
  loadTable property_encoding tbl !! p = None.
Proof.
  intros Hp Htag. rewrite loadTable_lookup, Hp. simpl.
  unfold loadProperty. rewrite Htag. reflexivity.
Qed.

Lemma loadTable_known tbl (q : string) d c :
  properties tbl !! q = Some d →
  property_encoding (property_tag d) = Some c →
  loadTable property_encoding tbl !! q
  = Some (PropertyView c (property_column d)).
Proof.
  intros Hq Htag. rewrite loadTable_lookup, Hq. simpl.
  unfold loadProperty. rewrite Htag. reflexivity.
Qed.

(** Every declared table is found under its name after loading. *)
Lemma loadMetadata_table model ext this (t : string) tbl :
  featureTables ext !! t = Some tbl →
  _featureTables
    (loadMetadata property_encoding accessor_component model ext this) !! t
  = Some (loadTable property_encoding tbl).
Proof.
  intros Ht. simpl. apply lookup_union_Some_l.
  rewrite lookup_fmap, Ht. reflexivity.
Qed.

(** A name that the payload does not declare keeps what it had. *)
Lemma loadMetadata_other_table model ext this (t : string) :
  featureTables ext !! t = None →
  _featureTables
    (loadMetadata property_encoding accessor_component model ext this) !! t
  = _featureTables this !! t.
Proof.
  intros Ht. simpl. apply lookup_union_r.
  rewrite lookup_fmap, Ht. reflexivity.
Qed.

(** A declaration with an unknown component type contributes no pair; the
    declarations before and after it are loaded as if it were not there. *)
Lemma loadFeatureID_skip l1 a l2 :
  accessor_component (componentType a) = None →
  omap (loadFeatureID accessor_component) (l1 ++ a :: l2)
  = omap (loadFeatureID accessor_component) l1
    ++ omap (loadFeatureID accessor_component) l2.
Proof.
  intros Ha. rewrite omap_app. f_equal. csimpl.
  unfold loadFeatureID at 1. rewrite Ha. reflexivity.
Qed.

(** The loaded pairs follow the declarations in order: they are what is
    left of the per-declaration results once the skipped ones are dropped. *)
Lemma loadFeatureID_in_order l :
  sublist (Some <$> omap (loadFeatureID accessor_component) l)
          (loadFeatureID accessor_component <$> l).
Proof.
  induction l as [|a l IH]; csimpl; [constructor |].
  destruct (loadFeatureID accessor_component a); csimpl.
  - by apply sublist_skip.
  - by apply sublist_cons.
Qed.

(** Every loaded pair carries a constructed accessor and the table name of
    its declaration. *)
Lemma loadFeatureID_constructed l :
  Forall (λ pr, holds_monostate pr.2 = false)
         (omap (loadFeatureID accessor_component) l).
Proof.
  apply Forall_forall. intros [name acc] Hin.
  apply list_elem_of_omap in Hin as (a & _ & Ha).
  unfold loadFeatureID in Ha.
  destruct (accessor_component (componentType a)); simplify_eq/=.
  reflexivity.
Qed.

(** Every declaration with a known component type has its pair in the
    loaded list, wherever it stands among the declarations. *)
Lemma loadFeatureID_known l a c :
  a ∈ l →
  accessor_component (componentType a) = Some c →
  (featureTable a, F_accessor c (accessor_column a))
    ∈ omap (loadFeatureID accessor_component) l.
Proof.
  intros Hin Hc. apply list_elem_of_omap. exists a. split; [exact Hin |].
  unfold loadFeatureID. rewrite Hc. reflexivity.
Qed.

(** Every loaded pair comes from a declaration with a known component type. *)
Lemma loadFeatureID_origin l (pr : string * FeatureIDAccessorType) :
  pr ∈ omap (loadFeatureID accessor_component) l →
  ∃ a c, a ∈ l ∧ accessor_component (componentType a) = Some c ∧
         pr = (featureTable a, F_accessor c (accessor_column a)).
Proof.
  intros Hin. apply list_elem_of_omap in Hin as (a & Hin & Ha).
  unfold loadFeatureID in Ha.
  destruct (accessor_component (componentType a)) as [c |] eqn:Hc;
    simplify_eq/=.
  by exists a, c.
Qed.

(** As many pairs are loaded as there are declarations with a known
    component type. *)
Lemma loadFeatureID_length l :
  length (omap (loadFeatureID accessor_component) l)
  = length (filter (λ a, is_Some (accessor_component (componentType a))) l).
Proof.
  induction l as [| a l IH]; [reflexivity |].
  csimpl. unfold loadFeatureID at 1.
  destruct (accessor_component (componentType a)) as [c |] eqn:Hc; csimpl.
  - rewrite filter_cons_True by (rewrite Hc; by eexists).
    cbn. by rewrite IH.
  - rewrite filter_cons_False by (rewrite Hc; by intros [? ?]).
    exact IH.
Qed.

End LoaderFacts.

(** C8. [loadMetadata] returns only the new state, and for every model and
    extension that state is as follows.  Every declared table is loaded under
    its name; in it a property whose tag selects no known variant has no
    entry, a property whose tag is known has its property view, and no other
    name has an entry.  A feature-ID declaration whose component type is
    unknown adds no pair, and the declarations before and after it are
    loaded as without it; every declaration whose component type is known
    has its pair in the list, every added pair comes from such a
    declaration, and as many pairs are added as there are such declarations. *)
Theorem loadMetadata_skips_unknown_tags {PropertyTag ComponentTag : Type}
    (property_encoding : PropertyTag → option Encoding)
    (accessor_component : ComponentTag → option Component)
    (model : Model) (modelMetadata : ExtensionModelExtFeatureMetadata)
    (this : CesiumMetadataImpl) :
  (∀ t tbl,
     featureTables modelMetadata !! t = Some tbl →
     ∃ inner,
       _featureTables (loadMetadata property_encoding accessor_component model
                         modelMetadata this) !! t = Some inner ∧
       (∀ p decl,
          properties tbl !! p = Some decl →
          property_encoding (property_tag decl) = None →
          inner !! p = None) ∧
       (∀ p decl c,
          properties tbl !! p = Some decl →
          property_encoding (property_tag decl) = Some c →
          inner !! p = Some (PropertyView c (property_column decl))) ∧
       (∀ p, properties tbl !! p = None → inner !! p = None)) ∧
  (∀ l1 a l2,
     declaredFeatureIDs model = l1 ++ a :: l2 →
     accessor_component (componentType a) = None →
     _featureIDs (loadMetadata property_encoding accessor_component model
                    modelMetadata this)
     = _featureIDs this
       ++ omap (loadFeatureID accessor_component) l1
       ++ omap (loadFeatureID accessor_component) l2) ∧
  (∀ a c,
     a ∈ declaredFeatureIDs model →
     accessor_component (componentType a) = Some c →
     (featureTable a, F_accessor c (accessor_column a))
       ∈ _featureIDs (loadMetadata property_encoding accessor_component model
                        modelMetadata this)) ∧
  (∀ pr,
     pr ∈ _featureIDs (loadMetadata property_encoding accessor_component model
                         modelMetadata this) →
     pr ∈ _featureIDs this ∨
     ∃ a c, a ∈ declaredFeatureIDs model ∧
            accessor_component (componentType a) = Some c ∧
            pr = (featureTable a, F_accessor c (accessor_column a))) ∧
  length (_featureIDs (loadMetadata property_encoding accessor_component model
                         modelMetadata this))
  = (length (_featureIDs this)
     + length (filter (λ a, is_Some (accessor_component (componentType a)))
                 (declaredFeatureIDs model)))%nat.
Proof.
  split; [| split; [| split; [| split]]].
  - intros t tbl Ht. exists (loadTable property_encoding tbl).
    split; [by apply loadMetadata_table |].
    split; [intros p decl; apply loadTable_unknown |].
    split; [intros p decl c; apply loadTable_known |].
    intros p Hp. rewrite loadTable_lookup, Hp. reflexivity.
  - intros l1 a l2 Hdecl Ha. simpl. rewrite Hdecl.
    by rewrite loadFeatureID_skip.
  - intros a c Hin Hc. simpl. apply elem_of_app. right.
    by apply loadFeatureID_known.
  - intros pr Hin. simpl in Hin. apply elem_of_app in Hin as [Hin | Hin].
    + by left.
    + right. by apply loadFeatureID_origin.
  - simpl. rewrite length_app. f_equal. apply loadFeatureID_length.
Qed.

Lemma loadMetadata_skips_unknown_tags_witness :
  (∃ inner,
     _featureTables example_loaded !! "buildings" = Some inner ∧
     inner !! "footprint" = None ∧
     inner !! "height" = Some (PropertyView (Scalar E_float) height_column)) ∧
  _featureIDs trees_loaded
  = [ ("buildings", F_accessor C_uint32 ids_column);
      ("trees", F_accessor C_uint8 footprint_column) ] ∧
  ("trees", F_accessor C_uint8 footprint_column) ∈ _featureIDs trees_loaded ∧
  length (_featureIDs trees_loaded) = 2%nat.
Proof.
  destruct (loadMetadata_skips_unknown_tags
              example_property_encoding example_accessor_component
              example_model example_metadata CesiumMetadataImpl_new)
    as (Htables & _).
  destruct (loadMetadata_skips_unknown_tags
              example_property_encoding example_accessor_component
              example_model trees_metadata CesiumMetadataImpl_new)
    as (_ & Hskip & Hknown & _ & Hlen).
  split; [| split; [| split]].
  - destruct (Htables "buildings" buildings_table) as
      (inner & Hin & Hunknown & Hkeep & _); [vm_compute; reflexivity |].
    exists inner. split; [exact Hin |]. split.
    + apply (Hunknown "footprint" footprint_property);
        [vm_compute; reflexivity | reflexivity].
    + apply (Hkeep "height" height_property);
        [vm_compute; reflexivity | reflexivity].
  - unfold trees_loaded.
    rewrite (Hskip [buildings_ids] signed_ids [trees_ids]);
      [reflexivity | reflexivity | reflexivity].
  - apply (Hknown trees_ids C_uint8); [| reflexivity].
    change (declaredFeatureIDs example_model)
      with [buildings_ids; signed_ids; trees_ids].
    do 2 apply list_elem_of_further. apply list_elem_of_here.
  - unfold trees_loaded. rewrite Hlen. reflexivity.
Defined.

(** C9. The loader's state is its two members and nothing else; the
    constructor leaves both empty and the before-delete hook empties both.  After [loadMetadata] the outer mapping
    answers each declared table name with that table's mapping from property
    name to property view, and leaves undeclared names as they were.  The
    list keeps its earlier pairs in front; the pairs added are constructed
    accessors, each with its declaration's table name, in the order in which
    the primitives declare them. *)
Theorem CesiumMetadataImpl_collections {PropertyTag ComponentTag : Type}
    (property_encoding : PropertyTag → option Encoding)
    (accessor_component : ComponentTag → option Component)
    (model : Model) (modelMetadata : ExtensionModelExtFeatureMetadata)
    (this : CesiumMetadataImpl) :
  this = {| _featureTables := _featureTables this;
            _featureIDs := _featureIDs this |} ∧
  _featureTables CesiumMetadataImpl_new = ∅ ∧
  _featureIDs CesiumMetadataImpl_new = [] ∧
  JustBeforeDelete this = CesiumMetadataImpl_new ∧
  (∀ t tbl,
     featureTables modelMetadata !! t = Some tbl →
     ∃ inner,
       _featureTables (loadMetadata property_encoding accessor_component model
                         modelMetadata this) !! t = Some inner ∧
       ∀ p, inner !! p
            = properties tbl !! p ≫= loadProperty property_encoding) ∧
  (∀ t,
     featureTables modelMetadata !! t = None →
     _featureTables (loadMetadata property_encoding accessor_component model
                       modelMetadata this) !! t
     = _featureTables this !! t) ∧
  (∃ added,
     _featureIDs (loadMetadata property_encoding accessor_component model
                    modelMetadata this) = _featureIDs this ++ added ∧
     sublist (Some <$> added)
             (loadFeatureID accessor_component <$> declaredFeatureIDs model) ∧
     sublist (added.*1) (featureTable <$> declaredFeatureIDs model) ∧
     Forall (λ pr, holds_monostate pr.2 = false) added).
Proof.
  split; [by destruct this |].
  split; [reflexivity |].
  split; [reflexivity |].
  split; [reflexivity |].
  split; [| split].
  - intros t tbl Ht. exists (loadTable property_encoding tbl). split.
    + by apply loadMetadata_table.
    + intros p. apply loadTable_lookup.
  - intros t. apply loadMetadata_other_table.
  - exists (omap (loadFeatureID accessor_component) (declaredFeatureIDs model)).
    split; [reflexivity |].
    split; [apply loadFeatureID_in_order |].
    split; [| apply loadFeatureID_constructed].
    induction (declaredFeatureIDs model) as [|a l IH]; csimpl; [constructor |].
    unfold loadFeatureID at 1.
    destruct (accessor_component (componentType a)); csimpl.
    + by apply sublist_skip.
    + by apply sublist_cons.
Qed.


(** * Further properties of the header *)

(** ** The visitor, whatever the traits answer *)

(** X1. With the library's traits the result of [getString] is the fallback
    for every value, so two values of any alternatives and payloads give the
    same result for the same fallback. *)
Theorem getString_ignores_value (v w : ValueType) (d : string) :
  getString v d = Some d ∧ getString v d = getString w d.
Proof.
  split; [apply getString_fallback |].
  rewrite (getString_fallback v), (getString_fallback w). reflexivity.
Qed.

(** X3. Keeping the boolean arm never gives a well-formed instantiation, at
    any alternative and for any fallback: the arm returns [const char*] (or
    has no condition to test) while [return defaultValue;] returns
    [std::string]. *)
Theorem getString_with_boolean_arm (N B S : CppType → bool)
    (v : ValueType) (d : string) :
  N (decltype_arg v) = false →
  B (decltype_arg v) = true →
  getString_with N B S v d = None.
Proof.
  intros HN HB. unfold getString_with, std_visit.
  by apply lambda_boolean_arm_ill_formed.
Qed.

Lemma getString_with_boolean_arm_witness :
  getString_with (CesiumGltf.IsMetadataNumeric ∘ decay)
    (CesiumGltf.IsMetadataBoolean ∘ decay)
    (CesiumGltf.IsMetadataString ∘ decay) (V_bool true) "n/a" = None.
Proof.
  apply (getString_with_boolean_arm (CesiumGltf.IsMetadataNumeric ∘ decay)
           (CesiumGltf.IsMetadataBoolean ∘ decay)
           (CesiumGltf.IsMetadataString ∘ decay) (V_bool true) "n/a");
    reflexivity.
Defined.

(** X4. Under arbitrary traits, at an array view or at [std::monostate] the
    visitor either returns the fallback unchanged or is ill-formed; it never
    returns any other string. *)
Theorem getString_with_array_or_absent (N B S : CppType → bool)
    (v : ValueType) (d : string) :
  is_array_or_absent v = true →
  getString_with N B S v d = Some d ∨ getString_with N B S v d = None.
Proof.
  intros Hv. unfold getString_with, std_visit.
  destruct (lambda N B S d v) as [s |] eqn:Hs; [left | by right].
  by rewrite (lambda_array_or_absent N B S d s v Hv Hs).
Qed.

Lemma getString_with_array_or_absent_witness :
  getString_with (CesiumGltf.IsMetadataNumeric ∘ decay)
    (CesiumGltf.IsMetadataBoolean ∘ decay)
    (CesiumGltf.IsMetadataString ∘ decay) (V_array_bool [true; false]) "n/a"
  = Some "n/a"
  ∨ getString_with (CesiumGltf.IsMetadataNumeric ∘ decay)
      (CesiumGltf.IsMetadataBoolean ∘ decay)
      (CesiumGltf.IsMetadataString ∘ decay) (V_array_bool [true; false]) "n/a"
    = None.
Proof.
  apply (getString_with_array_or_absent (CesiumGltf.IsMetadataNumeric ∘ decay)
           (CesiumGltf.IsMetadataBoolean ∘ decay)
           (CesiumGltf.IsMetadataString ∘ decay)
           (V_array_bool [true; false]) "n/a").
  reflexivity.
Defined.

(** X5. Whether the instantiation is well-formed is settled by the static
    type of the alternative: two values of the same alternative, with any
    payloads and any fallbacks, are both accepted or both rejected. *)
Theorem getString_with_well_formed_static (N B S : CppType → bool)
    (v w : ValueType) (d d' : string) :
  alternative v = alternative w →
  is_Some (getString_with N B S v d) ↔ is_Some (getString_with N B S w d').
Proof.
  intros Hvw. unfold getString_with, std_visit.
  rewrite !lambda_arms. unfold decltype_arg. rewrite Hvw.
  repeat case_match; try reflexivity;
    destruct v, w; try discriminate Hvw; cbn; try reflexivity;
    split; intros; by eexists.
Qed.

Lemma getString_with_well_formed_static_witness :
  is_Some (getString_with (CesiumGltf.IsMetadataNumeric ∘ decay)
             (CesiumGltf.IsMetadataBoolean ∘ decay)
             (CesiumGltf.IsMetadataString ∘ decay) (V_uint8 7) "n/a")
  ↔ is_Some (getString_with (CesiumGltf.IsMetadataNumeric ∘ decay)
               (CesiumGltf.IsMetadataBoolean ∘ decay)
               (CesiumGltf.IsMetadataString ∘ decay) (V_uint8 255) "none").
Proof.
  apply (getString_with_well_formed_static
           (CesiumGltf.IsMetadataNumeric ∘ decay)
           (CesiumGltf.IsMetadataBoolean ∘ decay)
           (CesiumGltf.IsMetadataString ∘ decay)
           (V_uint8 7) (V_uint8 255) "n/a" "none").
  reflexivity.
Defined.

(** ** The three alias lists, element by element *)

(** Membership in a list that is written out, by computation. *)
Ltac listed := apply (bool_decide_unpack _); vm_compute; reflexivity.

(** Case analysis on membership in a list that is written out. *)
Ltac members H :=
  repeat (apply elem_of_cons in H as [-> | H]);
  [.. | by apply elem_of_nil in H].

(** X6. In each of the three unions the index of a value tells which
    alternative it holds, and conversely: two values have the same index
    exactly when they have the same alternative type. *)
Theorem variant_index_identifies_alternative :
  (∀ v w : ValueType,
     index v = index w ↔ alternative v = alternative w) ∧
  (∀ p q : PropertyType,
     property_index p = property_index q
     ↔ property_alternative p = property_alternative q) ∧
  (∀ a b : FeatureIDAccessorType,
     accessor_index a = accessor_index b
     ↔ accessor_alternative a = accessor_alternative b).
Proof.
  split; [| split].
  - intros v w. destruct v, w; split; intros H;
      first [reflexivity | discriminate H].
  - intros [[e | e] ?] [[e' | e'] ?]; destruct e, e'; split; intros H;
      first [reflexivity | discriminate H].
  - intros [| c ?] [| c' ?]; [| destruct c' | destruct c | destruct c, c'];
      split; intros H; first [reflexivity | discriminate H].
Qed.

(** X7. [ValueType] has an array view of a type exactly when that type is one
    of the twelve element encodings, which are exactly its alternatives other
    than [std::monostate] and the array views: there is no array of arrays
    and no array of [std::monostate].  [PropertyType] has a property view of a
    type exactly when that type is an alternative of [ValueType] other than
    [std::monostate]. *)
Theorem ValueType_arrays_of_elements (T : CppType) :
  (MetadataArrayView T ∈ ValueType_alternatives ↔ T ∈ element_types) ∧
  (T ∈ element_types
   ↔ T ∈ ValueType_alternatives ∧ T ≠ monostate ∧
     ∀ U, T ≠ MetadataArrayView U) ∧
  (MetadataPropertyView T ∈ PropertyType_alternatives
   ↔ T ∈ ValueType_alternatives ∧ T ≠ monostate).
Proof.
  split; [| split]; split.
  - intros H. unfold ValueType_alternatives in H.
    repeat (apply elem_of_cons in H as [H | H]; [try discriminate H |]);
      [.. | by apply elem_of_nil in H];
      injection H as ->; listed.
  - intros H. unfold element_types, integer_types, floating_types in H.
    cbn [app] in H. members H; listed.
  - intros H. unfold element_types, integer_types, floating_types in H.
    cbn [app] in H. members H;
      (split; [listed | split; [discriminate | intros U; discriminate]]).
  - intros (H & Hm & Ha). unfold ValueType_alternatives in H.
    members H; first [ by destruct Hm | by edestruct Ha | listed ].
  - intros H. unfold PropertyType_alternatives in H.
    repeat (apply elem_of_cons in H as [H | H]; [try discriminate H |]);
      [.. | by apply elem_of_nil in H];
      injection H as ->; (split; [listed | discriminate]).
  - intros (H & Hm). unfold ValueType_alternatives in H.
    members H; first [ by destruct Hm | listed ].
Qed.

(** X8. Every component type a feature-ID accessor can read is one of the ten
    numeric encodings of [ValueType], has a property view in [PropertyType]
    and a scalar accessor view in [FeatureIDAccessorType]; each accessor
    value reads one of them.  Of the ten numeric encodings, exactly int32,
    int64, uint64 and double have no accessor. *)
Theorem feature_id_components_among_numerics :
  Forall (λ U, U ∈ integer_types ++ floating_types ∧
               U ∈ ValueType_alternatives ∧
               MetadataPropertyView U ∈ PropertyType_alternatives ∧
               AccessorView (SCALAR U) ∈ FeatureIDAccessorType_alternatives)
    feature_id_component_types ∧
  (∀ c, component_type c ∈ feature_id_component_types) ∧
  filter (λ U, AccessorView (SCALAR U) ∉ FeatureIDAccessorType_alternatives)
    (integer_types ++ floating_types)
  = [ int32_t; int64_t; uint64_t; double_t ].
Proof.
  split; [| split].
  - unfold feature_id_component_types.
    repeat apply Forall_cons_2; [.. | apply Forall_nil_2];
      repeat split; listed.
  - intros c. destruct c; listed.
  - vm_compute. reflexivity.
Qed.
